(** * py/setup.py of thermostat-eem: the packaging script and its descriptor

    The script imports [setup] and [find_packages] from setuptools and makes
    one call, [setup(name=..., packages=find_packages(), version=..., ...)].
    The keyword arguments of that call are the package descriptor.  The two
    imported functions belong to the packaging tool: they are operations of
    an environment the script runs in, and they may raise. *)

From Stdlib Require Import String Ascii List Bool Arith NArith Lia.
Import ListNotations.
Local Open Scope string_scope.
Local Open Scope list_scope.

(** ** Strings *)

Module Text.

(** [str.partition(c)]: the text before and after the first [c]. *)
Fixpoint partition (c : ascii) (s : string) : option (string * string) :=
  match s with
  | EmptyString => None
  | String a r =>
      if Ascii.eqb a c then Some (EmptyString, r)
      else match partition c r with
           | Some (h, t) => Some (String a h, t)
           | None => None
           end
  end.

(** [str.rpartition(c)]: the text before and after the last [c]. *)
Fixpoint rpartition (c : ascii) (s : string) : option (string * string) :=
  match s with
  | EmptyString => None
  | String a r =>
      match rpartition c r with
      | Some (h, t) => Some (String a h, t)
      | None => if Ascii.eqb a c then Some (EmptyString, r) else None
      end
  end.

(** [s.removeprefix(p)] when [s.startswith(p)]. *)
Fixpoint strip_prefix (p s : string) : option string :=
  match p, s with
  | EmptyString, _ => Some s
  | String a p', String b s' => if Ascii.eqb a b then strip_prefix p' s' else None
  | String _ _, EmptyString => None
  end.

(** [str.split(c)]: the fields between occurrences of [c]; never empty. *)
Fixpoint split (c : ascii) (s : string) : list string :=
  match s with
  | EmptyString => [EmptyString]
  | String a r =>
      if Ascii.eqb a c then EmptyString :: split c r
      else match split c r with
           | h :: t => String a h :: t
           | [] => [String a EmptyString]
           end
  end.

(** [c.join(l)]. *)
Fixpoint join (c : ascii) (l : list string) : string :=
  match l with
  | [] => EmptyString
  | [x] => x
  | x :: t => x ++ String c (join c t)
  end.

Fixpoint mem (c : ascii) (s : string) : bool :=
  match s with
  | EmptyString => false
  | String a r => Ascii.eqb a c || mem c r
  end.

Fixpoint forallb (p : ascii -> bool) (s : string) : bool :=
  match s with
  | EmptyString => true
  | String a r => p a && forallb p r
  end.

Definition nonempty (s : string) : bool :=
  match s with EmptyString => false | String _ _ => true end.

Definition is_digit (a : ascii) : bool :=
  let n := nat_of_ascii a in Nat.leb 48 n && Nat.leb n 57.

Definition digit_value (a : ascii) : N := N.of_nat (nat_of_ascii a - 48).

(** The value of a decimal numeral, most significant digit first. *)
Fixpoint decimal_from (acc : N) (s : string) : N :=
  match s with
  | EmptyString => acc
  | String a r => decimal_from (10 * acc + digit_value a) r
  end.

(** A non-negative integer written in decimal: one digit or more. *)
Definition numeral (s : string) : option N :=
  if nonempty s && forallb is_digit s then Some (decimal_from 0 s) else None.

End Text.

(** ** Version strings *)

Module Semver.

(** MAJOR.MINOR.PATCH: exactly three fields separated by dots, each a
    non-negative decimal integer. *)
Definition parse (s : string) : option (N * N * N) :=
  match Text.split "." s with
  | [a; b; c] =>
      match Text.numeral a, Text.numeral b, Text.numeral c with
      | Some x, Some y, Some z => Some (x, y, z)
      | _, _, _ => None
      end
  | _ => None
  end.

End Semver.

(** ** Python values and keyword arguments *)

(** The values the script passes: a [str] or a [list] of [str]. *)
Inductive value : Type :=
| Str (s : string)
| StrList (l : list string).

(** The keyword arguments of a call, in the order they are written. *)
Definition kwargs : Type := list (string * value).

Fixpoint lookup (k : string) (kw : kwargs) : option value :=
  match kw with
  | [] => None
  | (k', v) :: rest => if String.eqb k k' then Some v else lookup k rest
  end.

Definition keywords (kw : kwargs) : list string := map fst kw.

(** ** The descriptor of py/setup.py *)

Definition stabilizer_requirement : string :=
  "stabilizer@git+https://github.com/quartiq/stabilizer@becc1c72#subdirectory=py".

Definition miniconf_requirement : string :=
  "miniconf-mqtt@git+https://github.com/quartiq/miniconf@miniconf-v0.10.1#subdirectory=py/miniconf-mqtt".

(** The keyword arguments of the [setup(...)] call, lines 7 to 20, given the
    list [find_packages()] returned. *)
Definition setup_kwargs (pkgs : list string) : kwargs :=
  [ ("name", Str "thermostat");
    ("packages", StrList pkgs);
    ("version", Str "0.1.0");
    ("description", Str "Thermostat Utilities");
    ("author", Str "QUARTIQ GmbH");
    ("license", Str "MIT");
    ("install_requires", StrList [stabilizer_requirement; miniconf_requirement]) ].

(** The package list is what is shipped; every other keyword describes the
    distribution.  [metadata] keeps the describing fields. *)
Definition is_metadata_keyword (k : string) : bool := negb (String.eqb k "packages").

Definition metadata (kw : kwargs) : kwargs :=
  filter (fun p => is_metadata_keyword (fst p)) kw.

Definition install_requires (kw : kwargs) : list string :=
  match lookup "install_requires" kw with
  | Some (StrList l) => l
  | _ => []
  end.

Definition packages (kw : kwargs) : list string :=
  match lookup "packages" kw with
  | Some (StrList l) => l
  | _ => []
  end.

(** ** Dependency specifiers *)

Module Requirement.

(** Where a direct reference takes the package from:
    [<vcs>+<transport>://<host>/<repository>[@<revision>][#subdirectory=<dir>]]. *)
Record source : Type := {
  vcs : string;
  transport : string;
  host : string;
  repository : string;
  revision : option string;
  subdirectory : option string
}.

(** [<name>] alone is looked up in the package index; [<name>@<url>] is
    fetched from [<url>] instead. *)
Record t : Type := {
  name : string;
  origin : option source
}.

Definition parse_source (url : string) : option source :=
  match Text.partition "+" url with
  | None => None
  | Some (v, rest) =>
      let (location, fragment) :=
        match Text.partition "#" rest with
        | Some (l, f) => (l, Some f)
        | None => (rest, None)
        end in
      match Text.partition ":" location with
      | None => None
      | Some (scheme, after) =>
          match Text.strip_prefix "//" after with
          | None => None
          | Some hostpath =>
              match Text.partition "/" hostpath with
              | None => None
              | Some (h, path) =>
                  let (repo, rev) :=
                    match Text.rpartition "@" path with
                    | Some (p, r) => (p, Some r)
                    | None => (path, None)
                    end in
                  let build dir :=
                    {| vcs := v; transport := scheme; host := h;
                       repository := repo; revision := rev;
                       subdirectory := dir |} in
                  match fragment with
                  | None => Some (build None)
                  | Some f =>
                      match Text.strip_prefix "subdirectory=" f with
                      | Some d => Some (build (Some d))
                      | None => None
                      end
                  end
              end
          end
      end
  end.

Definition parse (s : string) : option t :=
  match Text.partition "@" s with
  | None => Some {| name := s; origin := None |}
  | Some (n, url) =>
      match parse_source url with
      | Some src => Some {| name := n; origin := Some src |}
      | None => None
      end
  end.

(** The text a parsed source stands for. *)
Definition render_source (src : source) : string :=
  vcs src ++ "+" ++ transport src ++ "://" ++ host src ++ "/" ++ repository src
  ++ match revision src with Some r => "@" ++ r | None => "" end
  ++ match subdirectory src with Some d => "#subdirectory=" ++ d | None => "" end.

Definition render (r : t) : string :=
  match origin r with
  | None => name r
  | Some src => name r ++ "@" ++ render_source src
  end.

(** The repository belongs to organisation [org] on [h] when its path is
    [org/<project>]. *)
Definition in_organisation (h org : string) (src : source) : bool :=
  String.eqb (host src) h
  && match Text.partition "/" (repository src) with
     | Some (o, project) => String.eqb o org && Text.nonempty project
     | None => false
     end.

End Requirement.

(** ** The packaging tool and the evaluation of the script *)

(** A call returns a value or raises. *)
Inductive result (E A : Type) : Type :=
| Returns (a : A)
| Raises (e : E).

Arguments Returns {E A} a.
Arguments Raises {E A} e.

(** What [from setuptools import setup, find_packages] binds: two functions
    of the tool, over the world [W] they read and change (the directory the
    script is run in, the command line, the package index, the build
    directory), raising exceptions of type [E]. *)
Record setuptools (W E : Type) : Type := {
  find_packages : W -> result E (list string);
  setup : kwargs -> W -> result E W
}.

Arguments find_packages {W E} _ _.
Arguments setup {W E} _ _ _.

(** The calls an evaluation makes, in order. *)
Inductive call : Type :=
| FindPackages
| Setup (kw : kwargs).

Definition registration (c : call) : list kwargs :=
  match c with
  | Setup kw => [kw]
  | FindPackages => []
  end.

(** The descriptors handed to [setup], in order. *)
Definition registrations (tr : list call) : list kwargs := flat_map registration tr.

Section Evaluation.

Context {W E : Type} (tool : setuptools W E).

(** An evaluation makes calls and either ends with a value in a world or
    stops at the first exception. *)
Definition M (A : Type) : Type := W -> list call * result E (A * W).

Definition ret {A : Type} (a : A) : M A := fun w => ([], Returns (a, w)).

Definition bind {A B : Type} (m : M A) (k : A -> M B) : M B :=
  fun w =>
    match m w with
    | (tr, Returns (a, w')) => let (tr', r) := k a w' in (tr ++ tr', r)
    | (tr, Raises e) => (tr, Raises e)
    end.

Definition call_find_packages : M (list string) :=
  fun w =>
    ([FindPackages],
     match find_packages tool w with
     | Returns pkgs => Returns (pkgs, w)
     | Raises e => Raises e
     end).

Definition call_setup (kw : kwargs) : M unit :=
  fun w =>
    ([Setup kw],
     match setup tool kw w with
     | Returns w' => Returns (tt, w')
     | Raises e => Raises e
     end).

Local Notation "x <- m ;; k" := (bind m (fun x => k))
  (at level 61, m at next level, right associativity).

(** py/setup.py: the keyword arguments are evaluated in the order written,
    [find_packages()] among them, and then [setup] is called. *)
Definition setup_py : M unit :=
  pkgs <- call_find_packages ;;
  call_setup (setup_kwargs pkgs).

(** The packaging step run twice in a row. *)
Definition setup_py_twice : M unit :=
  _ <- setup_py ;;
  setup_py.

End Evaluation.

Definition trace {E A W : Type} (r : list call * result E (A * W)) : list call := fst r.

Definition outcome {E A W : Type} (r : list call * result E (A * W)) : result E (A * W) := snd r.

(** ** The script with its import *)

(** Line 5, [from setuptools import setup, find_packages]: the import
    system either binds the two names to the functions of a tool, leaving
    the world as the import left it, or raises ([ModuleNotFoundError] when
    setuptools is not installed, [ImportError] when a name is missing). *)
Definition importer (W E : Type) : Type := W -> result E (setuptools W E * W).

(** The steps of an evaluation of the file: the import, then calls. *)
Inductive step : Type :=
| Import
| Call (c : call).

(** py/setup.py as a whole: the import of line 5, then the call of lines 7
    to 20 with the names the import bound.  The docstring of lines 2 to 4
    does nothing. *)
Definition setup_py_file {W E : Type} (import_setuptools : importer W E) (w : W)
    : list step * result E (unit * W) :=
  match import_setuptools w with
  | Raises e => ([Import], Raises e)
  | Returns (tool, w0) =>
      (Import :: map Call (trace (setup_py tool w0)), outcome (setup_py tool w0))
  end.

Definition file_steps {E A W : Type} (r : list step * result E (A * W)) : list step := fst r.

Definition file_outcome {E A W : Type} (r : list step * result E (A * W)) : result E (A * W) :=
  snd r.

(** ** Constraints on the interpreter *)

(** Whether a descriptor admits interpreter version [v], where [satisfies]
    is the tool's matching of a version against a specifier.  Only the
    [python_requires] keyword restricts the interpreter. *)
Definition admits {V : Type} (satisfies : V -> string -> bool) (kw : kwargs) (v : V) : bool :=
  match lookup "python_requires" kw with
  | None => true
  | Some (Str spec) => satisfies v spec
  | Some (StrList _) => false
  end.

(** ** The version of the sibling manifest *)

(** The check the comment on line 10 asks a maintainer to keep true, given
    the version string of Cargo.toml. *)
Definition versions_synchronized (cargo_version : string) (kw : kwargs) : bool :=
  match lookup "version" kw with
  | Some (Str v) => String.eqb v cargo_version
  | _ => false
  end.

(** ** Package discovery *)

Module Discovery.

#[local] Set Warnings "-register-all".

(** A directory tree. *)
Inductive entry : Type :=
| File (name : string)
| Dir (name : string) (children : list entry).

(** Induction over a directory tree, with the hypothesis for every child. *)
Fixpoint entry_rect_children (P : entry -> Prop)
    (file_case : forall n, P (File n))
    (dir_case : forall n children, Forall P children -> P (Dir n children))
    (e : entry) : P e :=
  match e with
  | File n => file_case n
  | Dir n children =>
      dir_case n children
        ((fix each (l : list entry) : Forall P l :=
            match l with
            | [] => Forall_nil P
            | x :: t => Forall_cons x (entry_rect_children P file_case dir_case x) (each t)
            end) children)
  end.

(** The content of the project root. *)
Definition layout : Type := list entry.

(** A package is named by the directories on the way to it, joined by dots. *)
Definition dotted (path : list string) : string := Text.join "." path.

Section Walk.

(** The tool's test of whether a directory's content makes it a package. *)
Variable looks_like_package : list entry -> bool.

(** Modelled from the spec: the walk behind [find_packages], which is not
    part of the repository.  The packages at and below one entry of a
    directory reached along [prefix]. *)
Fixpoint walk (prefix : list string) (e : entry) : list (list string) :=
  match e with
  | File _ => []
  | Dir n children =>
      if looks_like_package children
      then (prefix ++ [n]) :: flat_map (walk (prefix ++ [n])) children
      else []
  end.

(** Modelled from the spec: [find_packages] of setuptools, which is not part
    of the repository.  The tool "discovers installable sub-packages
    automatically from directory structure": it walks the tree below the
    project root and lists every directory that is a package and is reached
    through packages only. *)
Definition find_packages (fs : layout) : list string :=
  map dotted (flat_map (walk []) fs).

(** Modelled from the spec: the "sub-packages under the project root".
    [subpackage fs path]: [path] leads from the root [fs] to a package,
    through packages only. *)
Inductive subpackage : layout -> list string -> Prop :=
| subpackage_top (fs : layout) (n : string) (children : list entry) :
    In (Dir n children) fs ->
    looks_like_package children = true ->
    subpackage fs [n]
| subpackage_nested (fs : layout) (n : string) (children : list entry) (path : list string) :
    In (Dir n children) fs ->
    looks_like_package children = true ->
    subpackage children path ->
    subpackage fs (n :: path).

End Walk.

(** A regular package is a directory that holds an [__init__.py]. *)
Definition has_init (children : list entry) : bool :=
  existsb (fun e => match e with
                    | File n => String.eqb n "__init__.py"
                    | Dir _ _ => false
                    end) children.

(** The tool with the modelled discovery, over the project root as its
    world; [setup_impl] is whatever [setup] does. *)
Definition tool {E : Type} (looks_like_package : list entry -> bool)
    (setup_impl : kwargs -> layout -> result E layout) : setuptools layout E :=
  Build_setuptools layout E
    (fun fs => Returns (find_packages looks_like_package fs)) setup_impl.

End Discovery.

(** ** Sample environments *)

Module Samples.

Import Discovery.

(** py/ with one package and one sub-package, beside the script. *)
Definition py_tree : layout :=
  [ File "setup.py";
    Dir "thermostat" [ File "__init__.py"; File "thermostat_configure.py";
                       Dir "tools" [ File "__init__.py" ] ] ].

(** A root with no package at all. *)
Definition bare_tree : layout := [ File "setup.py" ].

(** A [setup] that accepts any descriptor and leaves the tree alone. *)
Definition accept : kwargs -> layout -> result string layout := fun _ fs => Returns fs.

(** A [setup] that rejects every descriptor. *)
Definition reject : kwargs -> layout -> result string layout :=
  fun _ _ => Raises "error in setup command".

Definition working_tool : setuptools layout string := tool has_init accept.

Definition failing_tool : setuptools layout string := tool has_init reject.

(** A tool whose discovery itself raises. *)
Definition blind_tool : setuptools layout string :=
  Build_setuptools layout string (fun _ => Raises "cannot list directory") accept.

End Samples.

(** ** Repeated runs *)

(** The packaging step run [n] times in a row, each run in the world the
    previous one left; the sequence stops at the first exception. *)
Fixpoint setup_py_times {W E : Type} (tool : setuptools W E) (n : nat) : M (W := W) (E := E) unit :=
  match n with
  | 0 => ret tt
  | S k => bind (setup_py tool) (fun _ => setup_py_times tool k)
  end.

Module Reruns.

(** A tool over a count of the builds made so far: every [setup] leaves a
    [build] package behind, which the next discovery finds. *)
Definition building_tool : setuptools nat string :=
  {| find_packages := fun builds =>
       Returns (if Nat.eqb builds 0 then ["thermostat"] else ["thermostat"; "build"]);
     setup := fun _ builds => Returns (S builds) |}.

End Reruns.

(** ** Sample interpreters *)

Module Imports.

(** An interpreter without setuptools. *)
Definition no_setuptools : importer Discovery.layout string :=
  fun _ => Raises "No module named 'setuptools'".

(** An interpreter with a tool installed; importing changes nothing. *)
Definition installed (tool : setuptools Discovery.layout string)
    : importer Discovery.layout string :=
  fun fs => Returns (tool, fs).

End Imports.

(** * Properties *)

(** ** Strings *)

Section TextFacts.

Import Text.
Local Open Scope string_scope.

Lemma partition_spec (c : ascii) (s h t : string) :
  partition c s = Some (h, t) -> s = h ++ String c t /\ mem c h = false.
Proof.
  revert h t; induction s as [|a r IH]; intros h t; simpl.
  - discriminate.
  - destruct (Ascii.eqb_spec a c) as [->|Hne].
    + intros [= <- <-]. split; reflexivity.
    + destruct (partition c r) as [[h' t']|] eqn:Hp; [|discriminate].
      intros [= <- <-]. destruct (IH h' t' eq_refl) as [-> Hm].
      split; [reflexivity|]. simpl.
      destruct (Ascii.eqb_spec a c); [contradiction|exact Hm].
Qed.

Lemma rpartition_spec (c : ascii) (s h t : string) :
  rpartition c s = Some (h, t) -> s = h ++ String c t /\ mem c t = false.
Proof.
  revert h t; induction s as [|a r IH]; intros h t; simpl.
  - discriminate.
  - destruct (rpartition c r) as [[h' t']|] eqn:Hp.
    + intros [= <- <-]. destruct (IH h' t' eq_refl) as [-> Hm].
      split; [reflexivity|exact Hm].
    + destruct (Ascii.eqb_spec a c) as [->|Hne]; [|discriminate].
      intros [= <- <-]. split; [reflexivity|].
      clear IH. induction r as [|b r IHr]; [reflexivity|].
      simpl in Hp. destruct (rpartition c r) as [[h' t']|]; [discriminate|].
      simpl. destruct (Ascii.eqb b c); [discriminate|]. apply IHr; reflexivity.
Qed.

Lemma strip_prefix_spec (p s r : string) :
  strip_prefix p s = Some r -> s = p ++ r.
Proof.
  revert s; induction p as [|a p IH]; intros s; simpl.
  - intros [= ->]. reflexivity.
  - destruct s as [|b s]; [discriminate|].
    destruct (Ascii.eqb_spec a b) as [->|]; [|discriminate].
    intros H. rewrite (IH _ H). reflexivity.
Qed.

Lemma split_nonempty (c : ascii) (s : string) : split c s <> [].
Proof.
  destruct s as [|a r]; simpl; [discriminate|].
  destruct (Ascii.eqb a c); [discriminate|].
  destruct (split c r); discriminate.
Qed.

(** Joining the fields of a split gives the text back. *)
Lemma join_split (c : ascii) (s : string) : join c (split c s) = s.
Proof.
  induction s as [|a r IH]; [reflexivity|]. simpl.
  destruct (Ascii.eqb_spec a c) as [->|Hne].
  - pose proof (split_nonempty c r) as Hn.
    simpl. destruct (split c r) as [|x l]; [contradiction|].
    simpl in *. rewrite IH. reflexivity.
  - pose proof (split_nonempty c r) as Hn.
    destruct (split c r) as [|x l]; [contradiction|].
    destruct l as [|y l]; simpl in *; rewrite <- IH; reflexivity.
Qed.

(** No field of a split holds the separator. *)
Lemma split_fields (c : ascii) (s : string) :
  Forall (fun f => mem c f = false) (split c s).
Proof.
  induction s as [|a r IH]; simpl.
  - constructor; [reflexivity|constructor].
  - destruct (Ascii.eqb_spec a c) as [->|Hne].
    + constructor; [reflexivity|exact IH].
    + destruct (split c r) as [|x l]; [constructor; [|constructor]|].
      * simpl. destruct (Ascii.eqb_spec a c); [contradiction|reflexivity].
      * inversion IH as [|? ? Hx Hl]; subst. constructor; [|exact Hl].
        simpl. destruct (Ascii.eqb_spec a c); [contradiction|exact Hx].
Qed.

Lemma split_without (c : ascii) (a : string) :
  mem c a = false -> split c a = [a].
Proof.
  induction a as [|x a IH]; simpl; [reflexivity|].
  destruct (Ascii.eqb x c); simpl; [discriminate|].
  intros H. rewrite (IH H). reflexivity.
Qed.

(** A text without the separator, then the separator: the first field. *)
Lemma split_append (c : ascii) (a r : string) :
  mem c a = false -> split c (a ++ String c r) = a :: split c r.
Proof.
  induction a as [|x a IH]; simpl.
  - intros _. rewrite Ascii.eqb_refl. reflexivity.
  - destruct (Ascii.eqb x c); simpl; [discriminate|].
    intros H. rewrite (IH H). reflexivity.
Qed.

Lemma digits_without_dot (s : string) :
  forallb is_digit s = true -> mem "." s = false.
Proof.
  induction s as [|x s IH]; simpl; [reflexivity|].
  intros H. apply andb_prop in H as [Hx Hs]. rewrite (IH Hs), orb_false_r.
  destruct (Ascii.eqb_spec x ".") as [->|]; [discriminate Hx|reflexivity].
Qed.

Lemma numeral_digits (s : string) (n : N) :
  numeral s = Some n -> forallb is_digit s = true.
Proof.
  unfold numeral. destruct (nonempty s); simpl; [|discriminate].
  destruct (forallb is_digit s); [reflexivity|discriminate].
Qed.

End TextFacts.

(** ** Specifiers and versions: what the parsers accept *)

Section ParserFacts.

Local Open Scope string_scope.

Lemma append_assoc (a b c : string) : (a ++ b) ++ c = a ++ (b ++ c).
Proof. induction a as [|x a IH]; simpl; [reflexivity|now rewrite IH]. Qed.

Lemma append_empty (a : string) : a ++ "" = a.
Proof. induction a as [|x a IH]; simpl; [reflexivity|now rewrite IH]. Qed.

(** Nest every concatenation to the right. *)
Ltac flatten :=
  repeat first [rewrite append_assoc | rewrite append_empty | progress simpl].

(** A parsed source stands for the text it was parsed from. *)
Lemma parse_source_render (url : string) (src : Requirement.source) :
  Requirement.parse_source url = Some src -> Requirement.render_source src = url.
Proof.
  unfold Requirement.parse_source.
  destruct (Text.partition "+" url) as [[v rest]|] eqn:Hv; [|discriminate].
  apply partition_spec in Hv as [-> _].
  destruct (Text.partition "#" rest) as [[location f]|] eqn:Hf.
  - apply partition_spec in Hf as [-> _].
    destruct (Text.partition ":" location) as [[scheme after]|] eqn:Hs; [|discriminate].
    apply partition_spec in Hs as [-> _].
    destruct (Text.strip_prefix "//" after) as [hostpath|] eqn:Ha; [|discriminate].
    apply strip_prefix_spec in Ha as ->.
    destruct (Text.partition "/" hostpath) as [[h path]|] eqn:Hh; [|discriminate].
    apply partition_spec in Hh as [-> _].
    destruct (Text.strip_prefix "subdirectory=" f) as [d|] eqn:Hd;
      [apply strip_prefix_spec in Hd as ->|].
    + destruct (Text.rpartition "@" path) as [[repo rev]|] eqn:Hr;
        [apply rpartition_spec in Hr as [-> _]|];
        intros [= <-]; unfold Requirement.render_source; flatten; reflexivity.
    + destruct (Text.rpartition "@" path) as [[repo rev]|]; discriminate.
  - destruct (Text.partition ":" rest) as [[scheme after]|] eqn:Hs; [|discriminate].
    apply partition_spec in Hs as [-> _].
    destruct (Text.strip_prefix "//" after) as [hostpath|] eqn:Ha; [|discriminate].
    apply strip_prefix_spec in Ha as ->.
    destruct (Text.partition "/" hostpath) as [[h path]|] eqn:Hh; [|discriminate].
    apply partition_spec in Hh as [-> _].
    destruct (Text.rpartition "@" path) as [[repo rev]|] eqn:Hr;
      [apply rpartition_spec in Hr as [-> _]|];
      intros [= <-]; unfold Requirement.render_source; flatten; reflexivity.
Qed.

(** A parsed specifier stands for the text it was parsed from, and its name
    holds no [@]. *)
Lemma parse_render (s : string) (r : Requirement.t) :
  Requirement.parse s = Some r ->
  Requirement.render r = s /\ Text.mem "@" (Requirement.name r) = false.
Proof.
  unfold Requirement.parse.
  destruct (Text.partition "@" s) as [[n url]|] eqn:Hp.
  - apply partition_spec in Hp as [-> Hm].
    destruct (Requirement.parse_source url) as [src|] eqn:Hs; [|discriminate].
    intros [= <-]. unfold Requirement.render; simpl.
    rewrite (parse_source_render _ _ Hs). split; [reflexivity|exact Hm].
  - intros [= <-]. split; [reflexivity|]. simpl.
    clear -Hp. induction s as [|a s IH]; [reflexivity|].
    simpl in *. destruct (Ascii.eqb a "@"); [discriminate|].
    destruct (Text.partition "@" s) as [[h t]|]; [discriminate|]. apply IH; reflexivity.
Qed.

(** A text accepted as a version is three decimal numerals with a dot
    between them. *)
Lemma semver_parse_sound (s : string) (x y z : N) :
  Semver.parse s = Some (x, y, z) ->
  exists a b c : string,
    s = a ++ "." ++ b ++ "." ++ c
    /\ Text.numeral a = Some x /\ Text.numeral b = Some y /\ Text.numeral c = Some z.
Proof.
  unfold Semver.parse. intros H.
  pose proof (join_split "." s) as Hj.
  destruct (Text.split "." s) as [|a [|b [|c [|? ?]]]]; try discriminate.
  destruct (Text.numeral a) as [x'|] eqn:Ha; [|discriminate].
  destruct (Text.numeral b) as [y'|] eqn:Hb; [|discriminate].
  destruct (Text.numeral c) as [z'|] eqn:Hc; [|discriminate].
  injection H as -> -> ->. exists a, b, c. simpl in Hj. auto.
Qed.

(** Conversely, three decimal numerals with a dot between them are accepted. *)
Lemma semver_parse_complete (a b c : string) (x y z : N) :
  Text.numeral a = Some x -> Text.numeral b = Some y -> Text.numeral c = Some z ->
  Semver.parse (a ++ "." ++ b ++ "." ++ c) = Some (x, y, z).
Proof.
  intros Ha Hb Hc. unfold Semver.parse.
  pose proof (digits_without_dot _ (numeral_digits _ _ Ha)) as Da.
  pose proof (digits_without_dot _ (numeral_digits _ _ Hb)) as Db.
  pose proof (digits_without_dot _ (numeral_digits _ _ Hc)) as Dc.
  change (a ++ "." ++ b ++ "." ++ c) with (a ++ String "." (b ++ String "." c)).
  rewrite (split_append _ _ _ Da), (split_append _ _ _ Db), (split_without _ _ Dc).
  rewrite Ha, Hb, Hc. reflexivity.
Qed.

End ParserFacts.

(** ** Evaluation of the script *)

Section EvaluationFacts.

Context {W E : Type} (tool : setuptools W E).

(** The whole evaluation: one call of [find_packages] and, when it returns,
    one call of [setup], whose outcome is the script's. *)
Lemma setup_py_run (w : W) :
  setup_py tool w =
  match find_packages tool w with
  | Returns pkgs => ([FindPackages; Setup (setup_kwargs pkgs)],
                     outcome (call_setup tool (setup_kwargs pkgs) w))
  | Raises e => ([FindPackages], Raises e)
  end.
Proof.
  unfold setup_py, bind, call_find_packages, call_setup, outcome.
  destruct (find_packages tool w); reflexivity.
Qed.

Lemma registrations_setup_py (w : W) :
  registrations (trace (setup_py tool w)) =
  match find_packages tool w with
  | Returns pkgs => [setup_kwargs pkgs]
  | Raises _ => []
  end.
Proof. rewrite setup_py_run. destruct (find_packages tool w); reflexivity. Qed.

Lemma registered_by_setup_py (w : W) (d : kwargs) :
  In d (registrations (trace (setup_py tool w))) ->
  exists pkgs, find_packages tool w = Returns pkgs /\ d = setup_kwargs pkgs.
Proof.
  rewrite registrations_setup_py.
  destruct (find_packages tool w) as [pkgs|e]; simpl; [|contradiction].
  intros [<-|[]]. exists pkgs. split; reflexivity.
Qed.

Lemma registrations_app (tr tr' : list call) :
  registrations (tr ++ tr') = registrations tr ++ registrations tr'.
Proof. unfold registrations. apply flat_map_app. Qed.

Lemma trace_bind {A B : Type} (m : M (W := W) (E := E) A) (k : A -> M B) (w : W) :
  trace (bind m k w) =
  match outcome (m w) with
  | Returns (a, w') => trace (m w) ++ trace (k a w')
  | Raises _ => trace (m w)
  end.
Proof.
  unfold bind, trace, outcome. destruct (m w) as [tr [[a w']|e]]; simpl; [|reflexivity].
  destruct (k a w'); reflexivity.
Qed.

(** Run twice in a row, the script registers what the two runs register. *)
Lemma registered_by_setup_py_twice (w : W) (d : kwargs) :
  In d (registrations (trace (setup_py_twice tool w))) ->
  exists w0, In d (registrations (trace (setup_py tool w0))).
Proof.
  unfold setup_py_twice. rewrite trace_bind.
  destruct (outcome (setup_py tool w)) as [[[] w']|e].
  - rewrite registrations_app. intros H. apply in_app_or in H as [H|H]; eauto.
  - eauto.
Qed.

End EvaluationFacts.

Lemma metadata_setup_kwargs (pkgs : list string) :
  metadata (setup_kwargs pkgs) = metadata (setup_kwargs []).
Proof. reflexivity. Qed.

Lemma setup_kwargs_packages (pkgs : list string) : packages (setup_kwargs pkgs) = pkgs.
Proof. reflexivity. Qed.

Lemma versions_synchronized_iff (cargo_version : string) (pkgs : list string) :
  versions_synchronized cargo_version (setup_kwargs pkgs) = true <-> cargo_version = "0.1.0".
Proof.
  unfold versions_synchronized.
  change (lookup "version" (setup_kwargs pkgs)) with (Some (Str "0.1.0")).
  rewrite String.eqb_eq. split; congruence.
Qed.

(** ** Package discovery finds the sub-packages, and nothing else *)

Section DiscoveryFacts.

Import Discovery.

Variable looks_like_package : list entry -> bool.

Lemma walk_complete (fs : layout) (path : list string) :
  subpackage looks_like_package fs path ->
  forall prefix, In (prefix ++ path) (flat_map (walk looks_like_package prefix) fs).
Proof.
  induction 1 as [fs n children Hin Hpkg | fs n children path Hin Hpkg _ IH];
    intros prefix; apply in_flat_map; exists (Dir n children);
    (split; [exact Hin|]); simpl; rewrite Hpkg.
  - left. reflexivity.
  - right. specialize (IH (prefix ++ [n])).
    rewrite <- app_assoc in IH. exact IH.
Qed.

Lemma subpackage_incl (fs fs' : layout) (path : list string) :
  incl fs fs' ->
  subpackage looks_like_package fs path -> subpackage looks_like_package fs' path.
Proof.
  intros Hincl Hsub.
  inversion Hsub as [? ? cs Hin Hl | ? ? cs ? Hin Hl Hs]; subst.
  - eapply subpackage_top; eauto.
  - eapply subpackage_nested; eauto.
Qed.

Lemma walk_sound_entry (e : entry) :
  forall prefix p, In p (walk looks_like_package prefix e) ->
  exists path, p = prefix ++ path /\ subpackage looks_like_package [e] path.
Proof.
  induction e as [n | n children IH] using entry_rect_children; intros prefix p; simpl.
  - contradiction.
  - destruct (looks_like_package children) eqn:Hpkg; [|contradiction].
    intros [<- | Hin].
    + exists [n]. split; [reflexivity|].
      eapply subpackage_top; [left; reflexivity | exact Hpkg].
    + apply in_flat_map in Hin as [c [Hc Hp]].
      rewrite Forall_forall in IH.
      destruct (IH c Hc _ _ Hp) as [path [-> Hsub]].
      exists (n :: path). rewrite <- app_assoc. split; [reflexivity|].
      eapply subpackage_nested; [left; reflexivity | exact Hpkg |].
      apply (subpackage_incl [c]); [|exact Hsub].
      intros x [<- | []]. exact Hc.
Qed.

Lemma walk_sound (fs : layout) (prefix p : list string) :
  In p (flat_map (walk looks_like_package prefix) fs) ->
  exists path, p = prefix ++ path /\ subpackage looks_like_package fs path.
Proof.
  intros Hin. apply in_flat_map in Hin as [e [He Hp]].
  destruct (walk_sound_entry e _ _ Hp) as [path [-> Hsub]].
  exists path. split; [reflexivity|].
  apply (subpackage_incl [e]); [|exact Hsub].
  intros x [<- | []]. exact He.
Qed.

(** Discovery lists exactly the sub-packages of the layout. *)
Lemma find_packages_spec (fs : layout) (name : string) :
  In name (Discovery.find_packages looks_like_package fs) <->
  exists path, subpackage looks_like_package fs path /\ name = dotted path.
Proof.
  unfold Discovery.find_packages. rewrite in_map_iff. split.
  - intros [p [<- Hin]]. apply walk_sound in Hin as [path [-> Hsub]].
    exists path. split; [exact Hsub | reflexivity].
  - intros [path [Hsub ->]]. exists path. split; [reflexivity|].
    apply (walk_complete _ _ Hsub []).
Qed.

End DiscoveryFacts.

(** * The claims *)

(** ** The registered descriptor *)

(** C1.  Evaluating the script makes exactly one registration: when the
    call of [find_packages] returns, [setup] is called once.  The metadata
    of the registered descriptor is name, version, description, author,
    license and the dependencies ([install_requires]), with the constant
    values of the source, and nothing else; the one keyword that is not
    metadata is [packages], which holds what [find_packages] returned. *)
Theorem setup_py_registers_one_descriptor {W E : Type}
    (tool : setuptools W E) (w : W) (pkgs : list string) :
  find_packages tool w = Returns pkgs ->
  exists d : kwargs,
    registrations (trace (setup_py tool w)) = [d]
    /\ metadata d =
         [ ("name", Str "thermostat");
           ("version", Str "0.1.0");
           ("description", Str "Thermostat Utilities");
           ("author", Str "QUARTIQ GmbH");
           ("license", Str "MIT");
           ("install_requires", StrList [stabilizer_requirement; miniconf_requirement]) ]
    /\ keywords d =
         ["name"; "packages"; "version"; "description"; "author"; "license";
          "install_requires"]
    /\ packages d = pkgs.
Proof.
  intros Hfind. exists (setup_kwargs pkgs).
  rewrite registrations_setup_py, Hfind.
  repeat split.
Qed.

Lemma setup_py_registers_one_descriptor_witness :
  find_packages Samples.working_tool Samples.py_tree
    = Returns ["thermostat"; "thermostat.tools"]
  /\ exists d : kwargs,
       registrations (trace (setup_py Samples.working_tool Samples.py_tree)) = [d]
       /\ metadata d =
            [ ("name", Str "thermostat");
              ("version", Str "0.1.0");
              ("description", Str "Thermostat Utilities");
              ("author", Str "QUARTIQ GmbH");
              ("license", Str "MIT");
              ("install_requires", StrList [stabilizer_requirement; miniconf_requirement]) ]
       /\ keywords d =
            ["name"; "packages"; "version"; "description"; "author"; "license";
             "install_requires"]
       /\ packages d = ["thermostat"; "thermostat.tools"].
Proof.
  split; [reflexivity|].
  apply (setup_py_registers_one_descriptor Samples.working_tool Samples.py_tree).
  reflexivity.
Defined.

(** ** Dependencies *)

(** C3.  The dependencies are an ordered sequence of exactly two specifier
    strings.  The first names [stabilizer] and the second [miniconf-mqtt];
    each is a direct reference that replaces the index lookup by a git
    repository, a revision and a subdirectory of it. *)
Theorem install_requires_two_direct_references (pkgs : list string) :
  lookup "install_requires" (setup_kwargs pkgs)
    = Some (StrList [stabilizer_requirement; miniconf_requirement])
  /\ length (install_requires (setup_kwargs pkgs)) = 2
  /\ map Requirement.parse (install_requires (setup_kwargs pkgs)) =
       [ Some {| Requirement.name := "stabilizer";
                 Requirement.origin :=
                   Some {| Requirement.vcs := "git";
                           Requirement.transport := "https";
                           Requirement.host := "github.com";
                           Requirement.repository := "quartiq/stabilizer";
                           Requirement.revision := Some "becc1c72";
                           Requirement.subdirectory := Some "py" |} |};
         Some {| Requirement.name := "miniconf-mqtt";
                 Requirement.origin :=
                   Some {| Requirement.vcs := "git";
                           Requirement.transport := "https";
                           Requirement.host := "github.com";
                           Requirement.repository := "quartiq/miniconf";
                           Requirement.revision := Some "miniconf-v0.10.1";
                           Requirement.subdirectory := Some "py/miniconf-mqtt" |} |} ]
  /\ Forall (fun s => exists r, Requirement.parse s = Some r /\ Requirement.render r = s)
       (install_requires (setup_kwargs pkgs)).
Proof.
  split; [reflexivity|]. split; [reflexivity|]. split; [vm_compute; reflexivity|].
  change (install_requires (setup_kwargs pkgs))
    with [stabilizer_requirement; miniconf_requirement].
  repeat constructor.
  - destruct (Requirement.parse stabilizer_requirement) as [r|] eqn:Hr;
      [|vm_compute in Hr; discriminate].
    exists r. split; [reflexivity | exact (proj1 (parse_render _ _ Hr))].
  - destruct (Requirement.parse miniconf_requirement) as [r|] eqn:Hr;
      [|vm_compute in Hr; discriminate].
    exists r. split; [reflexivity | exact (proj1 (parse_render _ _ Hr))].
Qed.

(** Every dependency specifier is a direct reference over https to a
    repository of the quartiq organisation on github.com, at a stated
    revision. *)
Lemma install_requires_https_quartiq (pkgs : list string) :
  Forall (fun s =>
            exists r src rev,
              Requirement.parse s = Some r
              /\ Requirement.origin r = Some src
              /\ Requirement.transport src = "https"
              /\ Requirement.in_organisation "github.com" "quartiq" src = true
              /\ Requirement.revision src = Some rev)
         (install_requires (setup_kwargs pkgs)).
Proof.
  change (install_requires (setup_kwargs pkgs))
    with [stabilizer_requirement; miniconf_requirement].
  repeat constructor;
    (eexists; eexists; eexists; split; [vm_compute; reflexivity|]);
    repeat split.
Qed.

(** ** Version *)

(** C8.  The declared version is a semantic version string: "0.1.0" is three
    dot-separated non-negative integers, MAJOR 0, MINOR 1 and PATCH 0. *)
Theorem version_is_semantic (pkgs : list string) :
  exists v a b c : string,
    lookup "version" (setup_kwargs pkgs) = Some (Str v)
    /\ v = "0.1.0"
    /\ Semver.parse v = Some (0, 1, 0)%N
    /\ v = (a ++ "." ++ b ++ "." ++ c)%string
    /\ Text.numeral a = Some 0%N /\ Text.numeral b = Some 1%N /\ Text.numeral c = Some 0%N.
Proof.
  assert (Hp : Semver.parse "0.1.0" = Some (0, 1, 0)%N) by (vm_compute; reflexivity).
  destruct (semver_parse_sound _ _ _ _ Hp) as [a [b [c [Hv [Ha [Hb Hc]]]]]].
  exists "0.1.0", a, b, c. repeat split; assumption.
Qed.

(** ** Constraints on the installation environment *)

(** C10.  The descriptor declares no [python_requires], no [extras_require],
    no [classifiers] and no [entry_points]; so whatever the tool's matching
    of interpreter versions against specifiers, the descriptor admits every
    interpreter version.  Its only keyword about the environment is
    [install_requires]. *)
Theorem descriptor_does_not_restrict_interpreter
    {V : Type} (satisfies : V -> string -> bool) (pkgs : list string) :
  lookup "python_requires" (setup_kwargs pkgs) = None
  /\ lookup "extras_require" (setup_kwargs pkgs) = None
  /\ lookup "classifiers" (setup_kwargs pkgs) = None
  /\ lookup "entry_points" (setup_kwargs pkgs) = None
  /\ (forall v : V, admits satisfies (setup_kwargs pkgs) v = true)
  /\ keywords (metadata (setup_kwargs pkgs)) =
       ["name"; "version"; "description"; "author"; "license"; "install_requires"].
Proof.
  assert (Hpy : lookup "python_requires" (setup_kwargs pkgs) = None) by reflexivity.
  split; [exact Hpy|]. do 3 (split; [reflexivity|]). split; [|reflexivity].
  intros v. unfold admits. rewrite Hpy. reflexivity.
Qed.

(** ** Determinism, failures and lifecycle *)

(** C5.  The descriptor metadata does not depend on the evaluation: the
    descriptors registered by any two evaluations of the script, under any
    tools and in any worlds, have identical metadata, and are identical
    altogether when [find_packages] returned the same list; the same holds
    for every descriptor registered when the packaging step is run twice in
    a row. *)
Theorem descriptor_metadata_is_constant {W1 E1 W2 E2 : Type}
    (tool1 : setuptools W1 E1) (tool2 : setuptools W2 E2)
    (w1 : W1) (w2 : W2) (d1 : kwargs) :
  In d1 (registrations (trace (setup_py tool1 w1))) ->
  (forall d2, In d2 (registrations (trace (setup_py tool2 w2))) ->
     metadata d1 = metadata d2 /\ (packages d1 = packages d2 -> d1 = d2))
  /\ (forall d2, In d2 (registrations (trace (setup_py_twice tool1 w1))) ->
        metadata d1 = metadata d2).
Proof.
  intros H1. apply registered_by_setup_py in H1 as [pkgs1 [_ ->]]. split.
  - intros d2 H2. apply registered_by_setup_py in H2 as [pkgs2 [_ ->]].
    split; [reflexivity|]. rewrite !setup_kwargs_packages. intros ->. reflexivity.
  - intros d2 H2. apply registered_by_setup_py_twice in H2 as [w0 H2].
    apply registered_by_setup_py in H2 as [pkgs2 [_ ->]].
    rewrite (metadata_setup_kwargs pkgs1), (metadata_setup_kwargs pkgs2). reflexivity.
Qed.

Lemma descriptor_metadata_is_constant_witness :
  In (setup_kwargs ["thermostat"; "thermostat.tools"])
     (registrations (trace (setup_py Samples.working_tool Samples.py_tree)))
  /\ (forall d2,
        In d2 (registrations (trace (setup_py Samples.failing_tool Samples.bare_tree))) ->
        metadata (setup_kwargs ["thermostat"; "thermostat.tools"]) = metadata d2
        /\ (packages (setup_kwargs ["thermostat"; "thermostat.tools"]) = packages d2 ->
            setup_kwargs ["thermostat"; "thermostat.tools"] = d2))
  /\ (forall d2,
        In d2 (registrations (trace (setup_py_twice Samples.working_tool Samples.py_tree))) ->
        metadata (setup_kwargs ["thermostat"; "thermostat.tools"]) = metadata d2).
Proof.
  split; [left; reflexivity|].
  apply (descriptor_metadata_is_constant Samples.working_tool Samples.failing_tool
           Samples.py_tree Samples.bare_tree).
  left. reflexivity.
Defined.

(** Once the import has bound the two names, the call statement raises [e]
    exactly when the call of [find_packages] or the call of [setup] on the
    descriptor raised [e]; when both return, it ends normally in the world
    [setup] left. *)
Lemma setup_py_fails_only_in_the_tool {W E : Type} (tool : setuptools W E) (w : W) :
  (forall e : E,
     outcome (setup_py tool w) = Raises e <->
     find_packages tool w = Raises e
     \/ exists pkgs, find_packages tool w = Returns pkgs
                     /\ setup tool (setup_kwargs pkgs) w = Raises e)
  /\ (forall pkgs w',
        find_packages tool w = Returns pkgs ->
        setup tool (setup_kwargs pkgs) w = Returns w' ->
        outcome (setup_py tool w) = Returns (tt, w')).
Proof.
  rewrite setup_py_run. unfold call_setup, outcome. split.
  - intros e. destruct (find_packages tool w) as [pkgs|e0] eqn:Hfind; simpl.
    + destruct (setup tool (setup_kwargs pkgs) w) as [w'|e1] eqn:Hsetup; split.
      * discriminate.
      * intros [H | [pkgs' [[= <-] H]]]; [discriminate | congruence].
      * intros [= ->]. right. exists pkgs. split; [reflexivity | exact Hsetup].
      * intros [H | [pkgs' [[= <-] H]]]; [discriminate | congruence].
    + split.
      * intros [= ->]. left. reflexivity.
      * intros [[= ->] | [pkgs' [H _]]]; [reflexivity | discriminate].
  - intros pkgs w' -> ->. reflexivity.
Qed.

(** C6, as amended.  The script has no error handling and no failure branch
    of its own, but it does not only fail inside the calls of the tool: its
    evaluation raises [e] exactly when the import of setuptools raises [e],
    or the call of [find_packages] raises [e], or the call of [setup] on
    the descriptor raises [e].  The exception is passed on as it is, and
    when all three return the evaluation ends normally in the world [setup]
    left. *)
Theorem setup_py_file_fails_only_outside_the_script {W E : Type}
    (import_setuptools : importer W E) (w : W) :
  (forall e : E,
     file_outcome (setup_py_file import_setuptools w) = Raises e <->
     import_setuptools w = Raises e
     \/ exists tool w0,
          import_setuptools w = Returns (tool, w0)
          /\ (find_packages tool w0 = Raises e
              \/ exists pkgs, find_packages tool w0 = Returns pkgs
                              /\ setup tool (setup_kwargs pkgs) w0 = Raises e))
  /\ (forall tool w0 pkgs w',
        import_setuptools w = Returns (tool, w0) ->
        find_packages tool w0 = Returns pkgs ->
        setup tool (setup_kwargs pkgs) w0 = Returns w' ->
        file_outcome (setup_py_file import_setuptools w) = Returns (tt, w')).
Proof.
  unfold setup_py_file, file_outcome. split.
  - intros e. destruct (import_setuptools w) as [[tool w0]|e0]; simpl.
    + rewrite (proj1 (setup_py_fails_only_in_the_tool tool w0) e). split.
      * intros H. right. exists tool, w0. split; [reflexivity | exact H].
      * intros [H | [tool' [w0' [[= <- <-] H]]]]; [discriminate | exact H].
    + split.
      * intros [= ->]. left. reflexivity.
      * intros [[= ->] | [tool [w0 [H _]]]]; [reflexivity | discriminate].
  - intros tool w0 pkgs w' -> Hfind Hsetup. simpl.
    exact (proj2 (setup_py_fails_only_in_the_tool tool w0) pkgs w' Hfind Hsetup).
Qed.

Lemma setup_py_file_fails_only_outside_the_script_witness :
  file_outcome (setup_py_file (Imports.installed Samples.failing_tool) Samples.py_tree)
    = Raises "error in setup command"
  /\ file_outcome (setup_py_file (Imports.installed Samples.blind_tool) Samples.py_tree)
     = Raises "cannot list directory"
  /\ file_outcome (setup_py_file Imports.no_setuptools Samples.py_tree)
     = Raises "No module named 'setuptools'"
  /\ file_outcome (setup_py_file (Imports.installed Samples.working_tool) Samples.py_tree)
     = Returns (tt, Samples.py_tree).
Proof.
  split; [|split; [|split]].
  - apply (proj1 (setup_py_file_fails_only_outside_the_script
                    (Imports.installed Samples.failing_tool) Samples.py_tree)).
    right. exists Samples.failing_tool, Samples.py_tree. split; [reflexivity|].
    right. exists ["thermostat"; "thermostat.tools"]. split; reflexivity.
  - apply (proj1 (setup_py_file_fails_only_outside_the_script
                    (Imports.installed Samples.blind_tool) Samples.py_tree)).
    right. exists Samples.blind_tool, Samples.py_tree. split; [reflexivity|].
    left. reflexivity.
  - apply (proj1 (setup_py_file_fails_only_outside_the_script
                    Imports.no_setuptools Samples.py_tree)).
    left. reflexivity.
  - apply (proj2 (setup_py_file_fails_only_outside_the_script
                    (Imports.installed Samples.working_tool) Samples.py_tree)
             Samples.working_tool Samples.py_tree ["thermostat"; "thermostat.tools"]);
      reflexivity.
Defined.

(** C6, counterexample.  In an interpreter without setuptools the
    evaluation raises although no call into the tool is made, neither of
    [find_packages] nor of [setup]. *)
Lemma setup_py_file_raises_without_a_tool_call :
  file_outcome (setup_py_file Imports.no_setuptools Samples.py_tree)
    = Raises "No module named 'setuptools'"
  /\ file_steps (setup_py_file Imports.no_setuptools Samples.py_tree) = [Import]
  /\ ~ (exists c, In (Call c) (file_steps (setup_py_file Imports.no_setuptools Samples.py_tree))).
Proof.
  split; [reflexivity|]. split; [reflexivity|].
  intros [c [H | []]]. discriminate H.
Qed.

(** ** Package discovery *)

(** C4.  The package list of the descriptor is not a literal: it is what
    [find_packages] computes from the directory tree under the project
    root.  For every layout the registered descriptor lists every
    sub-package of the root, and only sub-packages; and two layouts with
    different packages give descriptors with different package lists. *)
Theorem packages_are_discovered {E : Type}
    (looks_like_package : list Discovery.entry -> bool)
    (setup_impl : kwargs -> Discovery.layout -> result E Discovery.layout) :
  (forall fs : Discovery.layout,
     exists d,
       registrations (trace (setup_py (Discovery.tool looks_like_package setup_impl) fs)) = [d]
       /\ packages d = Discovery.find_packages looks_like_package fs
       /\ (forall path,
             Discovery.subpackage looks_like_package fs path ->
             In (Discovery.dotted path) (packages d))
       /\ (forall name,
             In name (packages d) ->
             exists path,
               Discovery.subpackage looks_like_package fs path
               /\ name = Discovery.dotted path))
  /\ (exists d1 d2,
        registrations
          (trace (setup_py (Discovery.tool Discovery.has_init setup_impl) Samples.py_tree)) = [d1]
        /\ registrations
             (trace (setup_py (Discovery.tool Discovery.has_init setup_impl) Samples.bare_tree)) = [d2]
        /\ packages d1 = ["thermostat"; "thermostat.tools"]
        /\ packages d2 = []).
Proof.
  split.
  - intros fs. exists (setup_kwargs (Discovery.find_packages looks_like_package fs)).
    split; [apply registrations_setup_py|].
    rewrite setup_kwargs_packages. split; [reflexivity|]. split.
    + intros path Hsub. apply find_packages_spec. exists path. split; [exact Hsub|reflexivity].
    + intros name Hin. apply find_packages_spec in Hin. exact Hin.
  - exists (setup_kwargs ["thermostat"; "thermostat.tools"]), (setup_kwargs []).
    repeat split.
Qed.

Lemma packages_are_discovered_witness :
  Discovery.subpackage Discovery.has_init Samples.py_tree ["thermostat"; "tools"]
  /\ exists d,
       registrations (trace (setup_py Samples.working_tool Samples.py_tree)) = [d]
       /\ In "thermostat.tools" (packages d).
Proof.
  assert (Hsub : Discovery.subpackage Discovery.has_init Samples.py_tree ["thermostat"; "tools"]).
  { eapply Discovery.subpackage_nested.
    - right. left. reflexivity.
    - reflexivity.
    - eapply Discovery.subpackage_top; [right; right; left; reflexivity | reflexivity]. }
  split; [exact Hsub|].
  destruct (proj1 (packages_are_discovered Discovery.has_init Samples.accept) Samples.py_tree)
    as [d [Hreg [_ [Hall _]]]].
  exists d. split; [exact Hreg | exact (Hall _ Hsub)].
Defined.

(** * Further properties of the script *)

(** ** Order of the calls *)

Section RunFacts.

Context {W E : Type} (tool : setuptools W E).

Lemma outcome_bind {A B : Type} (m : M (W := W) (E := E) A) (k : A -> M B) (w : W) :
  outcome (bind m k w) =
  match outcome (m w) with
  | Returns (a, w') => outcome (k a w')
  | Raises e => Raises e
  end.
Proof.
  unfold bind, outcome. destruct (m w) as [tr [[a w']|e]]; simpl; [|reflexivity].
  destruct (k a w'); reflexivity.
Qed.

(** A run is its trace and its outcome. *)
Lemma run_eq {A : Type} (r r' : list call * result E (A * W)) :
  trace r = trace r' -> outcome r = outcome r' -> r = r'.
Proof. destruct r, r'. unfold trace, outcome. simpl. intros -> ->. reflexivity. Qed.

Lemma registered_by_setup_py_times (n : nat) (w : W) (d : kwargs) :
  In d (registrations (trace (setup_py_times tool n w))) ->
  exists w0, In d (registrations (trace (setup_py tool w0))).
Proof.
  revert w. induction n as [|n IH]; intros w; simpl.
  - contradiction.
  - rewrite trace_bind. destruct (outcome (setup_py tool w)) as [[[] w']|e].
    + rewrite registrations_app. intros H. apply in_app_or in H as [H|H]; eauto.
    + eauto.
Qed.

Lemma registrations_setup_py_length (w : W) :
  length (registrations (trace (setup_py tool w))) <= 1.
Proof. rewrite registrations_setup_py. destruct (find_packages tool w); simpl; lia. Qed.

(** Two runs in a row are the sequence of length two. *)
Lemma setup_py_times_two (w : W) : setup_py_times tool 2 w = setup_py_twice tool w.
Proof.
  apply run_eq.
  - simpl. unfold setup_py_twice. rewrite !trace_bind.
    destruct (outcome (setup_py tool w)) as [[[] w']|e]; [|reflexivity].
    rewrite trace_bind.
    destruct (outcome (setup_py tool w')) as [[[] w'']|e]; [|reflexivity].
    simpl. rewrite app_nil_r. reflexivity.
  - simpl. unfold setup_py_twice. rewrite !outcome_bind.
    destruct (outcome (setup_py tool w)) as [[[] w']|e]; [|reflexivity].
    rewrite outcome_bind.
    destruct (outcome (setup_py tool w')) as [[[] w'']|e]; reflexivity.
Qed.

End RunFacts.

(** X1.  The steps of every evaluation of the file come in one order: the
    import first, then at most one call of [find_packages], then at most
    one call of [setup], on the descriptor.  When the import raises, no call
    is made; when [find_packages] raises, [setup] is never called. *)
Theorem calls_follow_the_import_in_order {W E : Type}
    (import_setuptools : importer W E) (w : W) :
  (exists calls,
     file_steps (setup_py_file import_setuptools w) = Import :: map Call calls
     /\ (calls = []
         \/ calls = [FindPackages]
         \/ exists pkgs, calls = [FindPackages; Setup (setup_kwargs pkgs)]))
  /\ (forall e,
        import_setuptools w = Raises e ->
        file_steps (setup_py_file import_setuptools w) = [Import])
  /\ (forall tool w0 e,
        import_setuptools w = Returns (tool, w0) ->
        find_packages tool w0 = Raises e ->
        file_steps (setup_py_file import_setuptools w) = [Import; Call FindPackages])
  /\ (forall tool w0 pkgs,
        import_setuptools w = Returns (tool, w0) ->
        find_packages tool w0 = Returns pkgs ->
        file_steps (setup_py_file import_setuptools w)
        = [Import; Call FindPackages; Call (Setup (setup_kwargs pkgs))]).
Proof.
  unfold setup_py_file, file_steps.
  destruct (import_setuptools w) as [[tool w0]|e0]; simpl.
  - rewrite setup_py_run. split; [|split; [|split]].
    + exists (trace (match find_packages tool w0 with
                     | Returns pkgs =>
                         ([FindPackages; Setup (setup_kwargs pkgs)],
                          outcome (call_setup tool (setup_kwargs pkgs) w0))
                     | Raises e => ([FindPackages], Raises e)
                     end)).
      split; [reflexivity|].
      destruct (find_packages tool w0) as [pkgs|e]; simpl; eauto.
    + discriminate.
    + intros tool' w0' e [= <- <-] ->. reflexivity.
    + intros tool' w0' pkgs [= <- <-] ->. reflexivity.
  - split; [|split; [|split]].
    + exists []. split; [reflexivity | left; reflexivity].
    + reflexivity.
    + discriminate.
    + discriminate.
Qed.

Lemma calls_follow_the_import_in_order_witness :
  file_steps (setup_py_file Imports.no_setuptools Samples.py_tree) = [Import]
  /\ file_steps (setup_py_file (Imports.installed Samples.blind_tool) Samples.py_tree)
     = [Import; Call FindPackages]
  /\ file_steps (setup_py_file (Imports.installed Samples.failing_tool) Samples.py_tree)
     = [Import; Call FindPackages;
        Call (Setup (setup_kwargs ["thermostat"; "thermostat.tools"]))].
Proof.
  split; [|split].
  - apply (proj1 (proj2 (calls_follow_the_import_in_order
                           Imports.no_setuptools Samples.py_tree))
             "No module named 'setuptools'").
    reflexivity.
  - apply (proj1 (proj2 (proj2 (calls_follow_the_import_in_order
                                  (Imports.installed Samples.blind_tool) Samples.py_tree)))
             Samples.blind_tool Samples.py_tree "cannot list directory"); reflexivity.
  - apply (proj2 (proj2 (proj2 (calls_follow_the_import_in_order
                                  (Imports.installed Samples.failing_tool) Samples.py_tree)))
             Samples.failing_tool Samples.py_tree); reflexivity.
Defined.

(** ** Repeated runs *)

(** X2.  However often the packaging step is run in a row, it registers at
    most one descriptor per run and each of them carries the same metadata;
    with a tool whose two functions never raise it registers exactly one per
    run and ends normally. *)
Theorem repeated_runs_register_same_metadata {W E : Type}
    (tool : setuptools W E) (n : nat) (w : W) :
  length (registrations (trace (setup_py_times tool n w))) <= n
  /\ Forall (fun d =>
               metadata d =
                 [ ("name", Str "thermostat");
                   ("version", Str "0.1.0");
                   ("description", Str "Thermostat Utilities");
                   ("author", Str "QUARTIQ GmbH");
                   ("license", Str "MIT");
                   ("install_requires",
                    StrList [stabilizer_requirement; miniconf_requirement]) ])
            (registrations (trace (setup_py_times tool n w)))
  /\ ((forall w0, exists pkgs, find_packages tool w0 = Returns pkgs) ->
      (forall kw w0, exists w1, setup tool kw w0 = Returns w1) ->
      length (registrations (trace (setup_py_times tool n w))) = n
      /\ exists w', outcome (setup_py_times tool n w) = Returns (tt, w')).
Proof.
  split; [|split].
  - revert w. induction n as [|n IH]; intros w; simpl; [lia|].
    rewrite trace_bind. pose proof (registrations_setup_py_length tool w) as H1.
    destruct (outcome (setup_py tool w)) as [[[] w']|e]; [|lia].
    rewrite registrations_app, length_app. specialize (IH w'). lia.
  - apply Forall_forall. intros d Hd.
    apply registered_by_setup_py_times in Hd as [w0 Hd].
    apply registered_by_setup_py in Hd as [pkgs [_ ->]]. reflexivity.
  - intros Hfind Hsetup. revert w. induction n as [|n IH]; intros w; simpl.
    + split; [reflexivity|]. exists w. reflexivity.
    + rewrite trace_bind, outcome_bind.
      destruct (Hfind w) as [pkgs Hp]. destruct (Hsetup (setup_kwargs pkgs) w) as [w1 Hs].
      pose proof (registrations_setup_py tool w) as Hreg. rewrite Hp in Hreg.
      pose proof (setup_py_run tool w) as Hrun. rewrite Hp in Hrun.
      assert (Hout : outcome (setup_py tool w) = Returns (tt, w1)).
      { rewrite Hrun. unfold call_setup, outcome. simpl. rewrite Hs. reflexivity. }
      rewrite Hout, registrations_app, length_app, Hreg.
      destruct (IH w1) as [Hlen Hend]. split; [simpl; lia | exact Hend].
Qed.

Lemma repeated_runs_register_same_metadata_witness :
  length (registrations (trace (setup_py_times Samples.working_tool 3 Samples.py_tree))) = 3
  /\ exists w',
       outcome (setup_py_times Samples.working_tool 3 Samples.py_tree) = Returns (tt, w').
Proof.
  apply (proj2 (proj2 (repeated_runs_register_same_metadata
                         Samples.working_tool 3 Samples.py_tree))).
  - intros w0. eexists. reflexivity.
  - intros kw w0. eexists. reflexivity.
Defined.

(** X4.  The second of two runs discovers the packages anew, in the world
    the first call of [setup] left: the two registered descriptors are equal
    exactly when the two discoveries returned the same list. *)
Theorem second_run_rediscovers_packages {W E : Type}
    (tool : setuptools W E) (w w1 : W) (p1 p2 : list string) :
  find_packages tool w = Returns p1 ->
  setup tool (setup_kwargs p1) w = Returns w1 ->
  find_packages tool w1 = Returns p2 ->
  trace (setup_py_twice tool w)
    = [FindPackages; Setup (setup_kwargs p1); FindPackages; Setup (setup_kwargs p2)]
  /\ outcome (setup_py_twice tool w) = outcome (call_setup tool (setup_kwargs p2) w1)
  /\ (setup_kwargs p1 = setup_kwargs p2 <-> p1 = p2).
Proof.
  intros H1 Hs H2.
  assert (Hout : outcome (setup_py tool w) = Returns (tt, w1)).
  { rewrite setup_py_run, H1. unfold call_setup, outcome. simpl. rewrite Hs. reflexivity. }
  unfold setup_py_twice. rewrite trace_bind, outcome_bind, Hout.
  rewrite (setup_py_run tool w), (setup_py_run tool w1), H1, H2. repeat split.
  - intros H. apply (f_equal packages) in H. exact H.
  - intros ->. reflexivity.
Qed.

Lemma second_run_rediscovers_packages_witness :
  trace (setup_py_twice Reruns.building_tool 0)
    = [FindPackages; Setup (setup_kwargs ["thermostat"]);
       FindPackages; Setup (setup_kwargs ["thermostat"; "build"])]
  /\ outcome (setup_py_twice Reruns.building_tool 0)
     = outcome (call_setup Reruns.building_tool (setup_kwargs ["thermostat"; "build"]) 1)
  /\ (setup_kwargs ["thermostat"] = setup_kwargs ["thermostat"; "build"]
      <-> ["thermostat"] = ["thermostat"; "build"]).
Proof.
  apply (second_run_rediscovers_packages Reruns.building_tool 0 1); reflexivity.
Defined.
